(** * Precision Drawing Tools: the 3D-view operators of [pdt_view.py]

    A shallow embedding of the operators defined in [src/pdt_view.py] and
    the properties their specification states about them.

    Python floats are IEEE binary64 numbers, here Rocq's primitive [float];
    the objects owned by the host application (areas of the screen, the 3D
    region of a view, the scene's property group) live in a store that
    every operator receives and returns, and an operator either returns its
    status set or raises. *)

From Stdlib Require Import Floats ZArith Permutation.
From stdpp Require Import base list strings gmap.

Set Warnings "-inexact-float".

(** ** Python values *)

Module Py.

(** [math.pi] *)
Definition pi : float := 0x1.921fb54442d18p+1%float.

(** [float(n)] for a small non-negative Python [int] *)
Definition float_of_int (n : Z) : float := PrimFloat.of_uint63 (Uint63.of_Z n).

Inductive Exception : Set :=
| AttributeError
| IndexError
| RuntimeError.

Inductive Outcome (A : Type) : Type :=
| Return (a : A)
| Raise (e : Exception).
Arguments Return {A} a.
Arguments Raise {A} e.

(** [l[i]] on a Python list *)
Definition index {A} (l : list A) (i : nat) : Outcome A :=
  match l !! i with
  | Some x => Return x
  | None => Raise IndexError
  end.

End Py.

(** ** [mathutils.Quaternion]

    The library belongs to the host.  A quaternion holds four
    single-precision numbers: the constructor rounds the Python floats it
    is given, the product with a number is taken in single precision,
    and [==] is the library's comparison of bit patterns, which lets two
    components differ by one unit in the last place. *)

Module mathutils.

Local Open Scope Z_scope.

(** a single-precision number, by the 32 bits that hold it; bits above
    these are not looked at *)
Record float32 : Set := F32 { bits : Z }.

Definition norm (x : float32) : Z := bits x mod 2^32.
Definition sign (x : float32) : bool := 2^31 <=? norm x.
(** exponent and fraction, the low 31 bits *)
Definition mag (x : float32) : Z := norm x mod 2^31.

Definition is_nan32 (x : float32) : bool := 0x7f800000 <? mag x.

(** the number the bits stand for, in the format of [SpecFloat] with
    precision 24 and exponents up to 128 *)
Definition decode (x : float32) : spec_float :=
  if is_nan32 x then S754_nan
  else if mag x =? 0x7f800000 then S754_infinity (sign x)
  else if mag x =? 0 then S754_zero (sign x)
  else if mag x <? 2^23 then S754_finite (sign x) (Z.to_pos (mag x)) (-149)
  else S754_finite (sign x) (Z.to_pos (mag x mod 2^23 + 2^23)) (mag x / 2^23 - 150).

Definition sign_bit (s : bool) : Z := if s then 2^31 else 0.

(** the bits of a number of that format; a NaN made here is the quiet
    NaN without payload *)
Definition encode (f : spec_float) : float32 :=
  match f with
  | S754_zero s => F32 (sign_bit s)
  | S754_infinity s => F32 (sign_bit s + 0x7f800000)
  | S754_nan => F32 0x7fc00000
  | S754_finite s m e => F32 (sign_bit s + (e + 149) * 2^23 + Zpos m)
  end.

(** a NaN operand comes out of an operation with its quiet bit set *)
Definition quiet (x : float32) : float32 :=
  F32 (sign_bit (sign x) + (if 2^22 <=? mag x mod 2^23 then mag x else mag x + 2^22)).

(** the product of two single-precision numbers, rounded to nearest *)
Definition float32_mul (a b : float32) : float32 :=
  if is_nan32 a then quiet a
  else if is_nan32 b then quiet b
  else encode (SFmul 24 128 (decode a) (decode b)).

(** a Python float stored in a C [float]: rounded to nearest *)
Definition float32_of_float (x : float) : float32 :=
  match Prim2SF x with
  | S754_finite s m e => encode (binary_round 24 128 s m e)
  | f => encode f
  end.

(** [int] arithmetic, wrapping at 32 bits *)
Definition wrap32 (z : Z) : Z := (z + 2^31) mod 2^32 - 2^31.

(** the [int] that has the bits of [x] *)
Definition as_int (x : float32) : Z := wrap32 (bits x).

Definition SIGNMASK (i : Z) : Z := if i <? 0 then -1 else 0.

(** [EXPP_FloatsAreEqual(af, bf, maxDiff)] of the library: the two bit
    patterns, taken as integers that grow with the numbers, differ by
    [maxDiff] at most *)
Definition EXPP_FloatsAreEqual (af bf : float32) (maxDiff : Z) : bool :=
  let ai := as_int af in
  let bi := as_int bf in
  let test := SIGNMASK (Z.lxor ai bi) in
  let diff := wrap32 (Z.lxor ai (Z.land test 0x7fffffff) - bi) in
  let v1 := wrap32 (maxDiff + diff) in
  let v2 := wrap32 (maxDiff - diff) in
  0 <=? Z.lor v1 v2.

(** the tuple of Python floats a quaternion is made from *)
Definition tuple4 : Type := float * float * float * float.

Record Quaternion : Set :=
  mkQuaternion { qw : float32; qx : float32; qy : float32; qz : float32 }.

(** [Quaternion((w, x, y, z))] *)
Definition Quaternion_new (v : tuple4) : Quaternion :=
  let '(w, x, y, z) := v in
  mkQuaternion (float32_of_float w) (float32_of_float x)
               (float32_of_float y) (float32_of_float z).

(** [q * s]: the number becomes a C [float] and multiplies every
    component *)
Definition Quaternion_mul (q : Quaternion) (s : float) : Quaternion :=
  let f := float32_of_float s in
  mkQuaternion (float32_mul (qw q) f) (float32_mul (qx q) f)
               (float32_mul (qy q) f) (float32_mul (qz q) f).

(** [q1 == q2]: [EXPP_VectorsAreEqual] over the four components, with one
    step allowed *)
Definition Quaternion_eq (q1 q2 : Quaternion) : bool :=
  EXPP_FloatsAreEqual (qw q1) (qw q2) 1 && EXPP_FloatsAreEqual (qx q1) (qx q2) 1 &&
  EXPP_FloatsAreEqual (qy q1) (qy q2) 1 && EXPP_FloatsAreEqual (qz q1) (qz q2) 1.

Definition row4 : Type := float * float * float * float.
(** a 4x4 matrix, row by row, as the tuple of tuples the source assigns *)
Definition Matrix : Type := row4 * row4 * row4 * row4.

End mathutils.
Export mathutils.

(** ** The host's objects *)

Module bpy.

(** [RegionView3D]: the three attributes the operators write.  An
    assignment stores the attribute; whatever else the host derives from
    the new value is outside the model. *)
Record RegionView3D : Type := mkRegionView3D {
  view_rotation : Quaternion;
  view_matrix : Matrix;
  view_distance : float;
}.

(** An area of the screen.  [area.spaces.active] and [area.spaces[0]]
    are the same object in the host (the active space is kept first), so
    the area carries that space's [region_3d], which may be [None]. *)
Record Area : Type := mkArea {
  type : string;
  region_3d : option RegionView3D;
}.

(** [scene.pdt_pg]: the inputs of the operators *)
Record PDT_pg : Set := mkPDT_pg {
  rotation_coords : float * float * float;
  vrotangle : float;
}.

(** a call of one of the host's own view operators *)
Inductive OpsCall : Set :=
| view_orbit (angle : float) (type : string)
| view_roll (angle : float) (type : string).

(** What an operator can reach from [context] (and from [bpy.context],
    the same object while an operator runs): the areas of the screen (an
    area object is referred to by its position in this list), the property
    group of the scene, and the calls made to [bpy.ops.view3d], oldest
    first. *)
Record World : Type := mkWorld {
  screen_areas : list Area;
  scene_pdt_pg : PDT_pg;
  ops_calls : list OpsCall;
}.

End bpy.
Export bpy.

(** ** Operators as state transformers that may raise *)

Definition Op (A : Type) : Type := World → Py.Outcome A * World.

Definition ret {A} (a : A) : Op A := λ w, (Py.Return a, w).
Definition raise {A} (e : Py.Exception) : Op A := λ w, (Py.Raise e, w).
Definition bind {A B} (k : A → Op B) (m : Op A) : Op B :=
  λ w, match m w with
       | (Py.Return a, w') => k a w'
       | (Py.Raise e, w') => (Py.Raise e, w')
       end.

Definition lift {A} (o : Py.Outcome A) : Op A := λ w, (o, w).

(** stdpp's notations [x ← m; k] and [m;; k] for sequencing *)
#[export] Instance Op_ret : MRet Op := @ret.
#[export] Instance Op_bind : MBind Op := @bind.

(** [for x in l: body], with the local variable [s] carried from one
    iteration to the next *)
Fixpoint for_in {A S} (l : list A) (body : A → S → Op S) (s : S) : Op S :=
  match l with
  | [] => ret s
  | x :: l' => s' ← body x s; for_in l' body s'
  end.

(** *** Access to the store *)

Definition get_pdt_pg : Op PDT_pg := λ w, (Py.Return (scene_pdt_pg w), w).

Definition get_areas : Op (list Area) := λ w, (Py.Return (screen_areas w), w).

(** the references to the areas of the screen of type ["VIEW_3D"]:
    [[a for a in context.screen.areas if a.type == "VIEW_3D"]] *)
Definition view3d_refs (l : list Area) : list nat :=
  filter (λ i, type <$> l !! i = Some "VIEW_3D") (seq 0 (length l)).

Definition view3d_areas : Op (list nat) :=
  l ← get_areas; ret (view3d_refs l).

(** [a.spaces[0].region_3d] of the area referred to by [a] *)
Definition get_region_3d (a : nat) : Op (option RegionView3D) :=
  λ w, match screen_areas w !! a with
       | Some ar => (Py.Return (region_3d ar), w)
       | None => (Py.Raise Py.IndexError, w)
       end.

(** an attribute assignment [a.spaces.active.region_3d.attr = ...], where
    [upd] stores the attribute; on [None] Python raises AttributeError *)
Definition set_region_attr (a : nat) (upd : RegionView3D → RegionView3D) : Op () :=
  λ w, match screen_areas w !! a with
       | Some ar =>
           match region_3d ar with
           | Some rv3d =>
               (Py.Return (),
                mkWorld (<[a := mkArea (type ar) (Some (upd rv3d))]> (screen_areas w))
                        (scene_pdt_pg w) (ops_calls w))
           | None => (Py.Raise Py.AttributeError, w)
           end
       | None => (Py.Raise Py.IndexError, w)
       end.

Definition with_view_rotation (q : Quaternion) (r : RegionView3D) : RegionView3D :=
  mkRegionView3D q (view_matrix r) (view_distance r).
Definition with_view_matrix (m : Matrix) (r : RegionView3D) : RegionView3D :=
  mkRegionView3D (view_rotation r) m (view_distance r).
Definition with_view_distance (d : float) (r : RegionView3D) : RegionView3D :=
  mkRegionView3D (view_rotation r) (view_matrix r) d.

Definition set_view_rotation (a : nat) (q : Quaternion) : Op () :=
  set_region_attr a (with_view_rotation q).
Definition set_view_matrix (a : nat) (m : Matrix) : Op () :=
  set_region_attr a (with_view_matrix m).
Definition set_view_distance (a : nat) (d : float) : Op () :=
  set_region_attr a (with_view_distance d).

(** ** The operators of [pdt_view.py] *)

(** the status set every [execute] returns *)
Definition FINISHED : gset string := {["FINISHED"]}.

(** [default_distance] and [default_view_matrix] of [PDT_OT_Reset3DView.execute] *)
Definition default_distance : Z := 18.

Definition default_view_matrix : Matrix :=
  ((0.41, -0.4017, 0.8188, 0.0),
   (0.912, 0.1936, -0.3617, 0.0),
   (-0.0133, 0.8959, 0.4458, 0.0),
   (0.0, 0.0, -14.9892, 1.0))%float.

(** the table [vlist] of [PDT_OT_Reset3DView.execute] *)
Definition vlist : list (tuple4 * string) :=
  [ ((10000000.0000, -0.0000, -0.0000, -0.0000)%float, "TOP");
    ((7071067.5000, 7071067.5000, -0.0000, -0.0000)%float, "FRONT");
    ((5000000.0000, 5000000.0000, 5000000.0000, 5000000.0000)%float, "RIGHT");
    ((0.0000, 10000000.0000, -0.0000, -0.0000)%float, "BOTTOM");
    ((0.0000, -0.0000, 7071067.5000, 7071067.5000)%float, "BACK");
    ((5000000.0000, 5000000.0000, -5000000.0000, -5000000.0000)%float, "LEFT") ].

(** [for v, vm in vlist: if view_rot == Quaternion(v): view_mode = vm] *)
Definition classify (vl : list (tuple4 * string)) (view_rot : Quaternion)
    (view_mode : string) : string :=
  foldl (λ view_mode '(v, vm),
           if Quaternion_eq view_rot (Quaternion_new v) then vm else view_mode)
        view_mode vl.

(** The body of the loop [for area in bpy.context.screen.areas] of
    [PDT_OT_Reset3DView.execute], for the area referred to by [area]; the
    local variable [view_mode] is carried through the loop, and the table
    is an argument so that tables in another order can be compared.  The
    calls of [debug] only print and are left out. *)
Definition reset_area (vl : list (tuple4 * string)) (area : nat) (view_mode : string)
    : Op string :=
  l ← get_areas;
  ar ← lift (Py.index l area);
  if bool_decide (type ar = "VIEW_3D") then
    rv3d ← get_region_3d area;
    match rv3d with
    | Some r =>
        let view_rot := Quaternion_mul (view_rotation r) (Py.float_of_int 10000000) in
        let view_mode := classify vl view_rot view_mode in
        (if bool_decide (view_mode ∈
              ({["TOP"; "FRONT"; "RIGHT"; "BOTTOM"; "BACK"; "LEFT"]} : gset string))
         then set_view_distance area (Py.float_of_int default_distance)
         else ret ());;
        (if bool_decide (view_mode = "none")
         then set_view_matrix area default_view_matrix;;
              set_view_distance area (Py.float_of_int (default_distance + 3))
         else ret ());;
        ret "none"
    | None => ret view_mode
    end
  else ret view_mode.

Definition Reset3DView_with (vl : list (tuple4 * string)) : Op (gset string) :=
  l ← get_areas;
  for_in (seq 0 (length l)) (reset_area vl) "none";;
  ret FINISHED.

Definition PDT_OT_Reset3DView_execute : Op (gset string) := Reset3DView_with vlist.

(** [PDT_OT_viso.execute] *)
Definition PDT_OT_viso_execute : Op (gset string) :=
  areas ← view3d_areas;
  (if bool_decide (0 < length areas)
   then a0 ← lift (Py.index areas 0);
        set_view_rotation a0 (Quaternion_new (0.8205, 0.4247, -0.1759, -0.3399)%float)
   else ret ());;
  ret FINISHED.

Section Operators.

(** [pdt_functions.euler_to_quaternion], which [pdt_view.py] imports *)
Variable euler_to_quaternion : float → float → float → Quaternion.

(** what a view operator of the host does when it is called where the
    operator at hand runs: it returns, or it raises (RuntimeError when
    its poll fails there), and it leaves the areas of the screen in some
    state *)
Variable view3d_exec : OpsCall → list Area → Py.Outcome () * list Area.

(** [bpy.ops.view3d.view_orbit(...)] and [bpy.ops.view3d.view_roll(...)] *)
Definition bpy_ops_view3d (c : OpsCall) : Op () :=
  λ w, ((view3d_exec c (screen_areas w)).1,
        mkWorld (view3d_exec c (screen_areas w)).2 (scene_pdt_pg w) (ops_calls w ++ [c])).

(** [PDT_OT_ViewRot.execute] *)
Definition PDT_OT_ViewRot_execute : Op (gset string) :=
  pg ← get_pdt_pg;
  areas ← view3d_areas;
  (if bool_decide (0 < length areas)
   then let '(x, y, z) := rotation_coords pg in
        let roll_value :=
          euler_to_quaternion (x * Py.pi / 180)%float
                              (y * Py.pi / 180)%float
                              (z * Py.pi / 180)%float in
        a0 ← lift (Py.index areas 0);
        set_view_rotation a0 roll_value
   else ret ());;
  ret FINISHED.

(** the common shape of the four orbit operators and of the roll operator *)
Definition orbit_execute (call : float → string → OpsCall) (tag : string)
    : Op (gset string) :=
  pg ← get_pdt_pg;
  areas ← view3d_areas;
  (if bool_decide (0 < length areas)
   then bpy_ops_view3d (call (vrotangle pg * Py.pi / 180)%float tag)
   else ret ());;
  ret FINISHED.

Definition PDT_OT_vRotL_execute := orbit_execute view_orbit "ORBITLEFT".
Definition PDT_OT_vRotR_execute := orbit_execute view_orbit "ORBITRIGHT".
Definition PDT_OT_vRotU_execute := orbit_execute view_orbit "ORBITUP".
Definition PDT_OT_vRotD_execute := orbit_execute view_orbit "ORBITDOWN".
Definition PDT_OT_vRoll_execute := orbit_execute view_roll "ANGLE".

(** the operator classes of the module *)
Inductive Operator : Set :=
| PDT_OT_ViewRot | PDT_OT_vRotL | PDT_OT_vRotR | PDT_OT_vRotU | PDT_OT_vRotD
| PDT_OT_vRoll | PDT_OT_viso | PDT_OT_Reset3DView.

Definition execute (o : Operator) : Op (gset string) :=
  match o with
  | PDT_OT_ViewRot => PDT_OT_ViewRot_execute
  | PDT_OT_vRotL => PDT_OT_vRotL_execute
  | PDT_OT_vRotR => PDT_OT_vRotR_execute
  | PDT_OT_vRotU => PDT_OT_vRotU_execute
  | PDT_OT_vRotD => PDT_OT_vRotD_execute
  | PDT_OT_vRoll => PDT_OT_vRoll_execute
  | PDT_OT_viso => PDT_OT_viso_execute
  | PDT_OT_Reset3DView => PDT_OT_Reset3DView_execute
  end.

End Operators.

(** ** What the reset loop does to one area

    The three cases of the loop body as a function of the area alone; the
    loop is proved below to apply it to every area of the screen. *)

Definition canonical_names : gset string :=
  {["TOP"; "FRONT"; "RIGHT"; "BOTTOM"; "BACK"; "LEFT"]}.

Definition reset_region (vl : list (tuple4 * string)) (r : RegionView3D) : RegionView3D :=
  let view_mode :=
    classify vl (Quaternion_mul (view_rotation r) (Py.float_of_int 10000000)) "none" in
  if bool_decide (view_mode ∈ canonical_names)
  then with_view_distance 18%float r
  else if bool_decide (view_mode = "none")
       then with_view_distance 21%float (with_view_matrix default_view_matrix r)
       else r.

Definition reset_one (vl : list (tuple4 * string)) (ar : Area) : Area :=
  if bool_decide (type ar = "VIEW_3D")
  then match region_3d ar with
       | Some r => mkArea (type ar) (Some (reset_region vl r))
       | None => ar
       end
  else ar.

(** an entry of the table matches the orientation [q] of a region *)
Abbreviation matches q e :=
  (Quaternion_eq (Quaternion_mul q (Py.float_of_int 10000000)) (Quaternion_new (fst e))).

(** [i] refers to the first area of type ["VIEW_3D"] *)
Definition first_view3d (l : list Area) (i : nat) : Prop :=
  (∃ a, l !! i = Some a ∧ type a = "VIEW_3D") ∧
  ∀ j b, j < i → l !! j = Some b → type b ≠ "VIEW_3D".

(** no area of the screen has type ["VIEW_3D"] *)
Definition no_view3d (l : list Area) : Prop :=
  ∀ a, a ∈ l → type a ≠ "VIEW_3D".

(** the assignment [areas[0].spaces.active.region_3d.view_rotation = q]
    under [if len(areas) > 0], as both operators have it *)
Definition assign_first (q : Quaternion) : Op (gset string) :=
  areas ← view3d_areas;
  (if bool_decide (0 < length areas)
   then a0 ← lift (Py.index areas 0); set_view_rotation a0 q
   else ret ());;
  ret FINISHED.

(** Tables in which two entries that match the same quaternion are the
    same entry give the same answer in every order. *)
Definition single_match (view_rot : Quaternion) (vl : list (tuple4 * string)) : Prop :=
  ∀ e1 e2, e1 ∈ vl → e2 ∈ vl →
    Quaternion_eq view_rot (Quaternion_new e1.1) = true →
    Quaternion_eq view_rot (Quaternion_new e2.1) = true → e1 = e2.

(** ** Sample inputs for the examples *)

(** a stand-in for [euler_to_quaternion], only used to run examples *)
Definition e2q_sample (roll pitch yaw : float) : Quaternion :=
  Quaternion_new (1, roll, pitch, yaw)%float.

(** a host whose view operators return and leave the areas as they are,
    and one whose view operators fail their poll *)
Definition host_sample (c : OpsCall) (l : list Area) : Py.Outcome () * list Area :=
  (Py.Return (), l).
Definition host_poll_fails (c : OpsCall) (l : list Area) : Py.Outcome () * list Area :=
  (Py.Raise Py.RuntimeError, l).

Definition matrix_sample : Matrix :=
  ((1, 0, 0, 0), (0, 1, 0, 0), (0, 0, 1, 0), (0, 0, -7, 1))%float.

(** a view from the top, and a view from nowhere in particular *)
Definition rv3d_top : RegionView3D :=
  mkRegionView3D (Quaternion_new (1, 0, 0, 0)%float) matrix_sample 7.
Definition rv3d_user : RegionView3D :=
  mkRegionView3D (Quaternion_new (0.5, 0.5, 0.5, -0.5)%float) matrix_sample 9.

(** a view from the front, with the single-precision square root of one
    half, and views one unit in the last place below and above the top *)
Definition rv3d_front : RegionView3D :=
  mkRegionView3D (Quaternion_new (0x1.6a09e6p-1, 0x1.6a09e6p-1, 0, 0)%float)
                 matrix_sample 7.
Definition rv3d_below_top : RegionView3D :=
  mkRegionView3D (mkQuaternion (F32 0x3f7fffff) (F32 0) (F32 0) (F32 0)) matrix_sample 7.
Definition rv3d_above_top : RegionView3D :=
  mkRegionView3D (mkQuaternion (F32 0x3f800001) (F32 0) (F32 0) (F32 0)) matrix_sample 7.

Definition pg_sample : PDT_pg := mkPDT_pg (90, 0, 45)%float 30.

(** three views that the reset takes for canonical *)
Definition w_views : World :=
  mkWorld [mkArea "VIEW_3D" (Some rv3d_front); mkArea "VIEW_3D" (Some rv3d_below_top);
           mkArea "VIEW_3D" (Some rv3d_above_top)]
          pg_sample [].

Definition w_sample : World :=
  mkWorld [mkArea "OUTLINER" None; mkArea "VIEW_3D" (Some rv3d_top);
           mkArea "PROPERTIES" None; mkArea "VIEW_3D" (Some rv3d_user)]
          pg_sample [].

(** the first 3D view has no region *)
Definition w_no_region : World :=
  mkWorld [mkArea "OUTLINER" None; mkArea "VIEW_3D" None;
           mkArea "VIEW_3D" (Some rv3d_top)]
          pg_sample [].

(** a screen without a 3D view *)
Definition w_no_view : World :=
  mkWorld [mkArea "OUTLINER" None; mkArea "PROPERTIES" None] pg_sample [].

(** ** Notions for the properties of the whole module *)

(** the outcome of an operator that ends with the call [c] to the host:
    it returns FINISHED when the call returns and raises what the call
    raises *)
Definition after_call (view3d_exec : OpsCall → list Area → Py.Outcome () * list Area)
    (w : World) (c : OpsCall) : Py.Outcome (gset string) * World :=
  (match (view3d_exec c (screen_areas w)).1 with
   | Py.Return _ => Py.Return FINISHED
   | Py.Raise e => Py.Raise e
   end,
   mkWorld (view3d_exec c (screen_areas w)).2 (scene_pdt_pg w) (ops_calls w ++ [c])).

(** the area has a 3D region ([region_3d] is not [None]) *)
Definition has_region (a : Area) : bool :=
  match region_3d a with Some _ => true | None => false end.

(** a component of the quaternion is not a number *)
Definition Quaternion_has_nan (q : Quaternion) : bool :=
  is_nan32 (qw q) || is_nan32 (qx q) || is_nan32 (qy q) || is_nan32 (qz q).

(** the integers whose bit patterns [EXPP_FloatsAreEqual] can take for
    equal to [c] with one step allowed: [c], the two next to it, and the
    patterns across the sign *)
Definition neighbours (c : float32) : list Z :=
  filter (λ k, EXPP_FloatsAreEqual (F32 k) c 1 = true)
    [as_int c; as_int c + 1; as_int c - 1; 0x7fffffff; 0; - 2^31; -1]%Z.

(** some number is taken for equal to both [c1] and [c2] *)
Definition compatible (c1 c2 : float32) : bool :=
  bool_decide (Exists (λ k, k ∈ neighbours c2) (neighbours c1)).

Definition Quaternion_compatible (q1 q2 : Quaternion) : bool :=
  compatible (qw q1) (qw q2) && compatible (qx q1) (qx q2) &&
  compatible (qy q1) (qy q2) && compatible (qz q1) (qz q2).

(** no number that is taken for equal to [c] is a NaN *)
Abbreviation no_nan_near c := (forallb (λ k, negb (is_nan32 (F32 k))) (neighbours c)).

(** the operators that write to a region themselves *)
Definition writes_region (o : Operator) : bool :=
  match o with
  | PDT_OT_ViewRot | PDT_OT_viso | PDT_OT_Reset3DView => true
  | _ => false
  end.

(** a region whose orientation is not a number, alone on a screen *)
Definition rv3d_nan : RegionView3D :=
  mkRegionView3D (Quaternion_new (0, nan, 0, 0)%float) matrix_sample 7.
Definition w_nan : World :=
  mkWorld [mkArea "VIEW_3D" (Some rv3d_nan)] pg_sample [].

(** * Properties *)

(** ** The areas an operator looks at *)

Lemma filter_seq_first (P : nat → Prop) `{∀ i, Decision (P i)} (n s i : nat) :
  s ≤ i < s + n → P i → (∀ j, s ≤ j < i → ¬ P j) →
  ∃ rest, filter P (seq s n) = i :: rest.
Proof.
  revert s. induction n as [|n IH]; intros s Hi HP Hlt; [lia|].
  simpl seq. destruct (decide (s = i)) as [->|Hne].
  - rewrite filter_cons_True by done. eauto.
  - rewrite filter_cons_False by (apply Hlt; lia).
    apply IH; [lia|done|]. intros j Hj. apply Hlt. lia.
Qed.

Lemma view3d_refs_first (l : list Area) (i : nat) :
  first_view3d l i → ∃ rest, view3d_refs l = i :: rest.
Proof.
  intros [(a & Ha & Hty) Hlt]. unfold view3d_refs.
  apply filter_seq_first.
  - apply lookup_lt_Some in Ha. lia.
  - by rewrite Ha, <- Hty.
  - intros j Hj Hc. destruct (l !! j) as [b|] eqn:Hb; [|done].
    injection Hc as Hc. by apply (Hlt j b); [lia| |].
Qed.

Lemma filter_none {A} (P : A → Prop) `{∀ x, Decision (P x)} (l : list A) :
  (∀ x, x ∈ l → ¬ P x) → filter P l = [].
Proof.
  induction l as [|x l IH]; intros Hl; [done|].
  rewrite filter_cons_False by (apply Hl; left).
  apply IH. intros y Hy. apply Hl. by right.
Qed.

Lemma view3d_refs_none (l : list Area) :
  no_view3d l → view3d_refs l = [].
Proof.
  intros Hno. apply filter_none. intros i _ Hi.
  destruct (l !! i) as [a|] eqn:Ha; [|done].
  injection Hi as Hi. apply (Hno a); [|done].
  apply list_elem_of_lookup. eauto.
Qed.

Lemma filter_seq_cons_inv (P : nat → Prop) `{∀ i, Decision (P i)} (n s i : nat) rest :
  filter P (seq s n) = i :: rest →
  s ≤ i < s + n ∧ P i ∧ ∀ j, s ≤ j < i → ¬ P j.
Proof.
  revert s. induction n as [|n IH]; intros s; [done|].
  simpl seq. rewrite filter_cons. destruct (decide (P s)) as [HP|HP].
  - intros [= <- _]. repeat split; [lia..|done|]. intros j Hj. lia.
  - intros Hf. destruct (IH _ Hf) as (Hr & HPi & Hlt).
    repeat split; [lia..|done|]. intros j Hj.
    destruct (decide (j = s)) as [->|]; [done|]. apply Hlt. lia.
Qed.

Lemma view3d_refs_cons_first (l : list Area) (i : nat) rest :
  view3d_refs l = i :: rest → first_view3d l i.
Proof.
  intros Hf. apply filter_seq_cons_inv in Hf as (Hr & HP & Hlt). split.
  - destruct (l !! i) as [a|]; [|done]. injection HP as HP. eauto.
  - intros j b Hj Hb Hty. apply (Hlt j); [lia|]. rewrite Hb. simpl. by rewrite Hty.
Qed.

Lemma view3d_cases (l : list Area) :
  no_view3d l ∨ ∃ i, first_view3d l i.
Proof.
  destruct (view3d_refs l) as [|i rest] eqn:Hf.
  - left. intros a Ha Hty. apply list_elem_of_lookup in Ha as [i Hi].
    refine (filter_nil_not_elem_of _ _ i Hf _ _).
    + rewrite Hi. simpl. by rewrite Hty.
    + apply elem_of_seq. apply lookup_lt_Some in Hi. lia.
  - right. exists i. by eapply view3d_refs_cons_first.
Qed.

Lemma first_view3d_unique (l : list Area) (i j : nat) :
  first_view3d l i → first_view3d l j → i = j.
Proof.
  intros [(a & Ha & Hta) Hi] [(b & Hb & Htb) Hj].
  destruct (Nat.lt_trichotomy i j) as [Hlt|[->|Hlt]]; [|done|].
  - by destruct (Hj i a Hlt Ha).
  - by destruct (Hi j b Hlt Hb).
Qed.

(** ** Running the operators that assign the orientation *)

Ltac op_unfold :=
  unfold view3d_areas, get_areas, get_pdt_pg, get_region_3d, lift,
    set_view_rotation, set_view_matrix, set_view_distance, set_region_attr,
    mbind, Op_bind, bind, mret, Op_ret, ret, Py.index.

Lemma assign_first_none (q : Quaternion) (w : World) :
  no_view3d (screen_areas w) → assign_first q w = (Py.Return FINISHED, w).
Proof.
  intros Hno. unfold assign_first. op_unfold.
  by rewrite (view3d_refs_none _ Hno).
Qed.

Lemma assign_first_region (q : Quaternion) (w : World) i a r :
  first_view3d (screen_areas w) i →
  screen_areas w !! i = Some a → region_3d a = Some r →
  assign_first q w =
    (Py.Return FINISHED,
     mkWorld (<[i := mkArea (type a) (Some (with_view_rotation q r))]> (screen_areas w))
             (scene_pdt_pg w) (ops_calls w)).
Proof.
  intros Hi Ha Hr. unfold assign_first. op_unfold.
  destruct (view3d_refs_first _ _ Hi) as [rest ->]. simpl.
  by rewrite Ha, Hr.
Qed.

Lemma assign_first_no_region (q : Quaternion) (w : World) i a :
  first_view3d (screen_areas w) i →
  screen_areas w !! i = Some a → region_3d a = None →
  assign_first q w = (Py.Raise Py.AttributeError, w).
Proof.
  intros Hi Ha Hr. unfold assign_first. op_unfold.
  destruct (view3d_refs_first _ _ Hi) as [rest ->]. simpl.
  by rewrite Ha, Hr.
Qed.

Lemma viso_assign_first :
  PDT_OT_viso_execute =
  assign_first (Quaternion_new (0.8205, 0.4247, -0.1759, -0.3399)%float).
Proof. reflexivity. Qed.

Lemma ViewRot_assign_first e2q (w : World) :
  PDT_OT_ViewRot_execute e2q w =
  assign_first
    (let '(x, y, z) := rotation_coords (scene_pdt_pg w) in
     e2q (x * Py.pi / 180)%float (y * Py.pi / 180)%float (z * Py.pi / 180)%float) w.
Proof.
  unfold PDT_OT_ViewRot_execute, assign_first. op_unfold.
  destruct (rotation_coords (scene_pdt_pg w)) as [[x y] z]. reflexivity.
Qed.

(** ** Running the reset loop *)

Lemma insert_middle {A} (l1 l2 : list A) (x y : A) :
  <[length l1 := y]> (l1 ++ x :: l2) = l1 ++ y :: l2.
Proof. rewrite insert_app_r_alt by lia. by rewrite Nat.sub_diag. Qed.

Lemma canonical_names_spec (s : string) :
  s ∈ canonical_names ↔
  s = "TOP" ∨ s = "FRONT" ∨ s = "RIGHT" ∨ s = "BOTTOM" ∨ s = "BACK" ∨ s = "LEFT".
Proof.
  unfold canonical_names. rewrite !elem_of_union, !elem_of_singleton. tauto.
Qed.

Lemma none_not_canonical : "none" ∉ canonical_names.
Proof. rewrite canonical_names_spec. intros H. repeat destruct H as [H|H]; discriminate. Qed.

Lemma reset_area_run vl (l1 l2 : list Area) (a : Area) pg c :
  reset_area vl (length l1) "none" (mkWorld (l1 ++ a :: l2) pg c) =
  (Py.Return "none", mkWorld (l1 ++ reset_one vl a :: l2) pg c).
Proof.
  unfold reset_area, reset_one, reset_region. op_unfold. simpl.
  rewrite list_lookup_middle by done.
  case_bool_decide as Hty; [|done]. simpl.
  rewrite list_lookup_middle by done.
  destruct a as [ty [r|]]; simpl in *; [|done].
  fold canonical_names.
  set (vm := classify vl _ "none").
  case_bool_decide as Hin; simpl.
  - rewrite list_lookup_middle by done. simpl.
    case_bool_decide as Hnone; simpl.
    + exfalso. rewrite Hnone in Hin. by apply none_not_canonical.
    + by rewrite insert_middle.
  - case_bool_decide as Hnone; simpl; [|done].
    rewrite list_lookup_middle by done. simpl.
    rewrite insert_middle, list_lookup_middle by done. simpl.
    by rewrite insert_middle.
Qed.

Lemma reset_loop_run vl (l2 l1 : list Area) pg c :
  for_in (seq (length l1) (length l2)) (reset_area vl) "none"
         (mkWorld (l1 ++ l2) pg c) =
  (Py.Return "none", mkWorld (l1 ++ (reset_one vl <$> l2)) pg c).
Proof.
  revert l1. induction l2 as [|a l2 IH]; intros l1; [done|].
  simpl. unfold mbind, Op_bind, bind. rewrite reset_area_run.
  specialize (IH (l1 ++ [reset_one vl a])).
  rewrite length_app, Nat.add_1_r, <- !app_assoc in IH. exact IH.
Qed.

Lemma Reset3DView_with_run vl (w : World) :
  Reset3DView_with vl w =
  (Py.Return FINISHED,
   mkWorld (reset_one vl <$> screen_areas w) (scene_pdt_pg w) (ops_calls w)).
Proof.
  destruct w as [l pg c]. unfold Reset3DView_with. op_unfold. simpl.
  by rewrite (reset_loop_run vl l []).
Qed.

(** ** Comparison of single-precision numbers and of quaternions *)

Section Bits.

Local Open Scope Z_scope.

Lemma wrap32_range z : - 2^31 <= wrap32 z < 2^31.
Proof. unfold wrap32. Z.div_mod_to_equations. lia. Qed.

Lemma wrap32_wrap32 z : wrap32 (wrap32 z) = wrap32 z.
Proof. unfold wrap32. Z.div_mod_to_equations. lia. Qed.

Lemma lxor_mask_nonneg a : 0 <= a < 2^31 → Z.lxor a 0x7fffffff = 0x7fffffff - a.
Proof.
  intros Ha. change 0x7fffffff with (Z.ones 31).
  rewrite <- Z.sub_lor_land, Z.land_ones, Z.mod_small by lia.
  rewrite Z.lor_ones_low; [done|lia|].
  destruct (Z.eq_dec a 0) as [->|]; [done|]. apply Z.log2_lt_pow2; lia.
Qed.

Lemma lxor_mask_neg a : - 2^31 <= a < 0 → Z.lxor a 0x7fffffff = - a - 2^31 - 1.
Proof.
  intros Ha. replace a with (Z.lnot (- a - 1)) by (unfold Z.lnot; lia).
  rewrite <- Z.lnot_lxor_l, lxor_mask_nonneg by lia. unfold Z.lnot. lia.
Qed.

(** what the comparison with one step accepts: the same integer, the
    next one, or one of four pairs across the sign (the two zeros, and
    the two NaNs with all bits set) *)
Lemma FloatsAreEqual_1 (a c : float32) :
  EXPP_FloatsAreEqual a c 1 = true →
  as_int a = as_int c ∨ as_int a = as_int c + 1 ∨ as_int a = as_int c - 1 ∨
  (as_int a = 0x7fffffff ∧ as_int c = -1) ∨ (as_int a = 0 ∧ as_int c = - 2^31) ∨
  (as_int a = - 2^31 ∧ as_int c = 0) ∨ (as_int a = -1 ∧ as_int c = 0x7fffffff).
Proof.
  unfold EXPP_FloatsAreEqual. intros H%Z.leb_le. apply Z.lor_nonneg in H as [H1 H2].
  pose proof (wrap32_range (bits a)) as Ra. pose proof (wrap32_range (bits c)) as Rc.
  fold (as_int a) in Ra. fold (as_int c) in Rc.
  revert H1 H2. generalize (as_int a) (as_int c) Ra Rc. clear. intros ai ci Ra Rc.
  unfold SIGNMASK. destruct (Z.ltb_spec (Z.lxor ai ci) 0) as [Hs|Hs].
  - change (Z.land (-1) 0x7fffffff) with 0x7fffffff.
    assert (¬ (0 <= ai ↔ 0 <= ci)) as Hd by (rewrite <- Z.lxor_nonneg; lia).
    destruct (Z.ltb_spec ai 0).
    + rewrite lxor_mask_neg by lia. unfold wrap32. intros. Z.div_mod_to_equations. lia.
    + rewrite lxor_mask_nonneg by lia. unfold wrap32. intros. Z.div_mod_to_equations. lia.
  - change (Z.land 0 0x7fffffff) with 0. rewrite Z.lxor_0_r.
    apply Z.lxor_nonneg in Hs.
    unfold wrap32. intros. Z.div_mod_to_equations. lia.
Qed.

Lemma FloatsAreEqual_as_int (a c : float32) (n : Z) :
  EXPP_FloatsAreEqual (F32 (as_int a)) c n = EXPP_FloatsAreEqual a c n.
Proof. unfold EXPP_FloatsAreEqual, as_int. simpl. by rewrite wrap32_wrap32. Qed.

Lemma FloatsAreEqual_neighbours (a c : float32) :
  EXPP_FloatsAreEqual a c 1 = true → as_int a ∈ neighbours c.
Proof.
  intros H. apply list_elem_of_filter. split; [by rewrite FloatsAreEqual_as_int|].
  apply FloatsAreEqual_1 in H. rewrite !elem_of_cons.
  destruct H as [H|[H|[H|[[H _]|[[H _]|[[H _]|[H _]]]]]]]; rewrite H; auto 10.
Qed.

Lemma FloatsAreEqual_compatible (a c1 c2 : float32) :
  EXPP_FloatsAreEqual a c1 1 = true → EXPP_FloatsAreEqual a c2 1 = true →
  compatible c1 c2 = true.
Proof.
  intros H1%FloatsAreEqual_neighbours H2%FloatsAreEqual_neighbours.
  apply bool_decide_eq_true, Exists_exists. eauto.
Qed.

Lemma is_nan32_as_int (a : float32) : is_nan32 (F32 (as_int a)) = is_nan32 a.
Proof.
  unfold is_nan32, mag, norm, as_int, wrap32. simpl. f_equal.
  Z.div_mod_to_equations. lia.
Qed.

(** a NaN is not taken for equal to a number that has no NaN next to it *)
Lemma nan_FloatsAreEqual (a c : float32) :
  is_nan32 a = true → no_nan_near c = true → EXPP_FloatsAreEqual a c 1 = false.
Proof.
  intros Ha Hc. apply not_true_is_false. intros H.
  apply FloatsAreEqual_neighbours, list_elem_of_In in H.
  apply (proj1 (forallb_forall _ _) Hc), negb_true_iff in H.
  rewrite is_nan32_as_int in H. congruence.
Qed.

Lemma mag_sign_bit (s : bool) (m : Z) : 0 <= m < 2^31 → mag (F32 (sign_bit s + m)) = m.
Proof.
  intros Hm. unfold mag, norm. simpl. rewrite (Z.mod_small _ (2^32)).
  - destruct s; simpl sign_bit; [|by apply Z.mod_small].
    rewrite Z.add_comm, <- (Z.mul_1_l (2^31)), Z_mod_plus_full. by apply Z.mod_small.
  - destruct s; simpl sign_bit; lia.
Qed.

Lemma is_nan32_quiet (a : float32) : is_nan32 a = true → is_nan32 (quiet a) = true.
Proof.
  unfold is_nan32, quiet. rewrite !Z.ltb_lt.
  assert (0 <= mag a < 2^31) as Hm by (apply Z.mod_pos_bound; lia).
  generalize dependent (mag a). intros m Hm Hnan.
  destruct (Z.leb_spec (2^22) (m mod 2^23)) as [Hq|Hq].
  - by rewrite mag_sign_bit.
  - assert (m + 2^22 < 2^31) by (Z.div_mod_to_equations; lia).
    rewrite mag_sign_bit; lia.
Qed.

Lemma nan_mul_is_nan (a s : float32) :
  is_nan32 a = true → is_nan32 (float32_mul a s) = true.
Proof. intros Ha. unfold float32_mul. rewrite Ha. by apply is_nan32_quiet. Qed.

End Bits.

Lemma Quaternion_eq_compatible (q q1 q2 : Quaternion) :
  Quaternion_eq q q1 = true → Quaternion_eq q q2 = true →
  Quaternion_compatible q1 q2 = true.
Proof.
  unfold Quaternion_eq, Quaternion_compatible. rewrite !andb_true_iff.
  intros [[[H1 H2] H3] H4] [[[K1 K2] K3] K4].
  repeat split;
    [exact (FloatsAreEqual_compatible _ _ _ H1 K1)
    |exact (FloatsAreEqual_compatible _ _ _ H2 K2)
    |exact (FloatsAreEqual_compatible _ _ _ H3 K3)
    |exact (FloatsAreEqual_compatible _ _ _ H4 K4)].
Qed.

Ltac vlist_cases H :=
  unfold vlist in H;
  repeat (apply elem_of_cons in H as [->|H]);
  [..|by apply elem_of_nil in H].

(** the six constants of the table are so far apart that no quaternion
    is taken for equal to two of them *)
Lemma vlist_distinct (e1 e2 : tuple4 * string) :
  e1 ∈ vlist → e2 ∈ vlist →
  Quaternion_compatible (Quaternion_new e1.1) (Quaternion_new e2.1) = true → e1 = e2.
Proof.
  intros H1 H2. vlist_cases H1; vlist_cases H2;
    intros Heq; try reflexivity; vm_compute in Heq; discriminate.
Qed.

(** and none of their components has a NaN next to it *)
Lemma vlist_no_nan_near (e : tuple4 * string) :
  e ∈ vlist →
  let q := Quaternion_new e.1 in
  no_nan_near (qw q) = true ∧ no_nan_near (qx q) = true ∧
  no_nan_near (qy q) = true ∧ no_nan_near (qz q) = true.
Proof. intros H. vlist_cases H; vm_compute; done. Qed.

Lemma vlist_NoDup : NoDup vlist.
Proof.
  apply (NoDup_fmap_1 snd). apply (bool_decide_unpack _). by vm_compute.
Qed.

Lemma vlist_tags (e : tuple4 * string) : e ∈ vlist → e.2 ∈ canonical_names.
Proof.
  intros H. apply canonical_names_spec. vlist_cases H; simpl; tauto.
Qed.

(** ** The classification loop *)

Lemma classify_cons v vm vl (view_rot : Quaternion) (init : string) :
  classify ((v, vm) :: vl) view_rot init =
  classify vl view_rot
    (if Quaternion_eq view_rot (Quaternion_new v) then vm else init).
Proof. reflexivity. Qed.

Lemma classify_cases vl (view_rot : Quaternion) (init : string) :
  ((∀ e, e ∈ vl → Quaternion_eq view_rot (Quaternion_new e.1) = false) ∧
   classify vl view_rot init = init) ∨
  (∃ e, e ∈ vl ∧ Quaternion_eq view_rot (Quaternion_new e.1) = true ∧
        classify vl view_rot init = e.2).
Proof.
  revert init. induction vl as [|[v vm] vl IH]; intros init.
  - left. split; [|done]. by intros e ?%elem_of_nil.
  - rewrite classify_cons.
    destruct (IH (if Quaternion_eq view_rot (Quaternion_new v) then vm else init))
      as [[Hno Hc]|(e & He & Hm & Hc)].
    + rewrite Hc. destruct (Quaternion_eq view_rot (Quaternion_new v)) eqn:Hv.
      * right. exists (v, vm). split; [left|done].
      * left. split; [|done]. intros e [->|He]%elem_of_cons; [done|by apply Hno].
    + right. exists e. split; [by right|done].
Qed.

Lemma single_match_vlist (view_rot : Quaternion) : single_match view_rot vlist.
Proof.
  intros e1 e2 H1 H2 M1 M2. apply vlist_distinct; [done..|].
  by apply (Quaternion_eq_compatible view_rot).
Qed.

Lemma classify_perm (view_rot : Quaternion) vl vl' :
  vl ≡ₚ vl' → single_match view_rot vl →
  ∀ init, classify vl view_rot init = classify vl' view_rot init.
Proof.
  induction 1 as [|[v vm] l l' Hp IH|[v1 vm1] [v2 vm2] l|l l' l'' Hp1 IH1 Hp2 IH2];
    intros Hs init.
  - done.
  - rewrite !classify_cons. apply IH.
    intros e1 e2 H1 H2. apply Hs; by right.
  - rewrite !classify_cons.
    destruct (Quaternion_eq view_rot (Quaternion_new v1)) eqn:M1;
      destruct (Quaternion_eq view_rot (Quaternion_new v2)) eqn:M2; try done.
    assert ((v1, vm1) = (v2, vm2)) as [= -> ->]; [|done].
    apply Hs; [right; left|left|done..].
  - rewrite IH1 by done. apply IH2.
    intros e1 e2 H1 H2. apply Hs; by rewrite Hp1.
Qed.

Lemma reset_one_perm vl (a : Area) :
  vl ≡ₚ vlist → reset_one vl a = reset_one vlist a.
Proof.
  intros Hp. unfold reset_one, reset_region.
  destruct (region_3d a) as [r|]; [|done].
  rewrite (classify_perm _ vl vlist Hp); [done|].
  intros e1 e2 H1 H2. apply single_match_vlist; by rewrite <- Hp.
Qed.

(** ** The reset of one region, case by case *)

Lemma reset_region_match (r : RegionView3D) :
  (∃ e, e ∈ vlist ∧ matches (view_rotation r) e = true) →
  reset_region vlist r = with_view_distance 18%float r.
Proof.
  intros (e & He & Hm). unfold reset_region in *.
  destruct (classify_cases vlist
              (Quaternion_mul (view_rotation r) (Py.float_of_int 10000000)) "none")
    as [[Hno _]|(e' & He' & _ & ->)].
  - by rewrite (Hno e He) in Hm.
  - by rewrite bool_decide_true by by apply vlist_tags.
Qed.

Lemma reset_region_no_match (r : RegionView3D) :
  (∀ e, e ∈ vlist → matches (view_rotation r) e = false) →
  reset_region vlist r =
  with_view_distance 21%float (with_view_matrix default_view_matrix r).
Proof.
  intros Hno. unfold reset_region in *.
  destruct (classify_cases vlist
              (Quaternion_mul (view_rotation r) (Py.float_of_int 10000000)) "none")
    as [[_ ->]|(e' & He' & Hm & _)].
  - by rewrite bool_decide_false by apply none_not_canonical.
  - by rewrite (Hno e' He') in Hm.
Qed.

Lemma reset_one_other vl (a : Area) :
  type a ≠ "VIEW_3D" → reset_one vl a = a.
Proof. intros Hty. unfold reset_one. by rewrite bool_decide_false. Qed.

(** ** Frame properties of the orientation assignment *)

Lemma assign_first_cases (q : Quaternion) (w : World) :
  assign_first q w = (Py.Return FINISHED, w) ∧ no_view3d (screen_areas w) ∨
  (∃ i a r, first_view3d (screen_areas w) i ∧ screen_areas w !! i = Some a ∧
     region_3d a = Some r ∧
     assign_first q w =
       (Py.Return FINISHED,
        mkWorld (<[i := mkArea (type a) (Some (with_view_rotation q r))]> (screen_areas w))
                (scene_pdt_pg w) (ops_calls w))) ∨
  (∃ i a, first_view3d (screen_areas w) i ∧ screen_areas w !! i = Some a ∧
     region_3d a = None ∧
     assign_first q w = (Py.Raise Py.AttributeError, w)).
Proof.
  destruct (view3d_cases (screen_areas w)) as [Hno|[i Hi]].
  - left. split; [by apply assign_first_none|done].
  - right. destruct Hi as [(a & Ha & Hty) Hlt].
    assert (first_view3d (screen_areas w) i) as Hi by (split; eauto).
    destruct (region_3d a) as [r|] eqn:Hr.
    + left. exists i, a, r. repeat split; eauto using assign_first_region.
    + right. exists i, a. repeat split; eauto using assign_first_no_region.
Qed.

Lemma assign_first_pg (q : Quaternion) (w : World) :
  scene_pdt_pg (assign_first q w).2 = scene_pdt_pg w.
Proof.
  destruct (assign_first_cases q w)
    as [[-> _]|[(i & a & r & _ & _ & _ & ->)|(i & a & _ & _ & _ & ->)]]; done.
Qed.

Lemma assign_first_others (q : Quaternion) (w : World) (i j : nat) :
  first_view3d (screen_areas w) i → j ≠ i →
  screen_areas (assign_first q w).2 !! j = screen_areas w !! j.
Proof.
  intros Hi Hne.
  destruct (assign_first_cases q w)
    as [[-> _]|[(i' & a & r & Hi' & _ & _ & ->)|(i' & a & _ & _ & _ & ->)]];
    [done| |done].
  simpl. rewrite (first_view3d_unique _ _ _ Hi Hi') in Hne.
  by rewrite list_lookup_insert_ne.
Qed.

Lemma assign_first_first (q : Quaternion) (w : World) (i : nat) (a : Area) :
  first_view3d (screen_areas w) i → screen_areas w !! i = Some a →
  ∃ a', screen_areas (assign_first q w).2 !! i = Some a' ∧ type a' = type a ∧
    ∀ r, region_3d a = Some r →
      ∃ r', region_3d a' = Some r' ∧ view_rotation r' = q ∧
            view_matrix r' = view_matrix r ∧ view_distance r' = view_distance r.
Proof.
  intros Hi Ha. destruct (region_3d a) as [r|] eqn:Hr.
  - rewrite (assign_first_region q w i a r) by done. simpl.
    rewrite list_lookup_insert_eq by by eapply lookup_lt_Some.
    eexists. repeat split. intros ? [= <-]. eauto.
  - rewrite (assign_first_no_region q w i a) by done. simpl.
    exists a. by repeat split.
Qed.

(** ** Running the orbit and roll operators *)

Section Orbit.

Variable view3d_exec : OpsCall → list Area → Py.Outcome () * list Area.


Lemma orbit_execute_none call tag (w : World) :
  no_view3d (screen_areas w) →
  orbit_execute view3d_exec call tag w = (Py.Return FINISHED, w).
Proof.
  intros Hno. unfold orbit_execute. op_unfold.
  by rewrite (view3d_refs_none _ Hno).
Qed.

Lemma orbit_execute_some call tag (w : World) :
  (∃ a, a ∈ screen_areas w ∧ type a = "VIEW_3D") →
  orbit_execute view3d_exec call tag w =
  after_call view3d_exec w (call (vrotangle (scene_pdt_pg w) * Py.pi / 180)%float tag).
Proof.
  intros (a & Ha & Hty).
  destruct (view3d_cases (screen_areas w)) as [Hno|[i Hi]]; [by destruct (Hno a Ha)|].
  unfold orbit_execute, after_call, bpy_ops_view3d. op_unfold.
  destruct (view3d_refs_first _ _ Hi) as [rest ->]. simpl.
  by destruct (view3d_exec _ _) as [[[]|e] l'].
Qed.

Lemma orbit_execute_pg call tag (w : World) :
  scene_pdt_pg (orbit_execute view3d_exec call tag w).2 = scene_pdt_pg w.
Proof.
  destruct (view3d_cases (screen_areas w)) as [Hno|[i [(a & Ha & Hty) _]]].
  - by rewrite orbit_execute_none.
  - rewrite orbit_execute_some; [done|].
    exists a. split; [|done]. apply list_elem_of_lookup. eauto.
Qed.

End Orbit.

(** ** The sample inputs *)

Ltac first_view3d_tac :=
  split;
  [ eexists; split; reflexivity
  | let j := fresh "j" in let b := fresh "b" in
    let Hj := fresh "Hj" in let Hb := fresh "Hb" in
    intros j b Hj Hb;
    repeat (destruct j as [|j]; [injection Hb as <-; discriminate|]);
    exfalso; simpl in Hj; lia ].

Lemma w_sample_first : first_view3d (screen_areas w_sample) 1.
Proof. first_view3d_tac. Defined.

Lemma w_no_region_first : first_view3d (screen_areas w_no_region) 1.
Proof. first_view3d_tac. Defined.

Lemma w_no_view_none : no_view3d (screen_areas w_no_view).
Proof.
  intros a Ha. simpl in Ha.
  repeat (apply elem_of_cons in Ha as [->|Ha]); [discriminate..|].
  by apply elem_of_nil in Ha.
Defined.

(** *** The operators run on the samples *)

Example Reset3DView_on_sample :
  PDT_OT_Reset3DView_execute w_sample =
  (Py.Return FINISHED,
   mkWorld [mkArea "OUTLINER" None;
            mkArea "VIEW_3D"
              (Some (mkRegionView3D (Quaternion_new (1, 0, 0, 0)%float) matrix_sample 18));
            mkArea "PROPERTIES" None;
            mkArea "VIEW_3D"
              (Some (mkRegionView3D (Quaternion_new (0.5, 0.5, 0.5, -0.5)%float)
                                    default_view_matrix 21))]
           pg_sample []).
Proof. vm_compute. reflexivity. Qed.

(** the front view as the host holds it, and the views one unit in the
    last place off the top, are taken for canonical *)
Example Reset3DView_on_views :
  PDT_OT_Reset3DView_execute w_views =
  (Py.Return FINISHED,
   mkWorld [mkArea "VIEW_3D" (Some (with_view_distance 18 rv3d_front));
            mkArea "VIEW_3D" (Some (with_view_distance 18 rv3d_below_top));
            mkArea "VIEW_3D" (Some (with_view_distance 18 rv3d_above_top))]
           pg_sample []).
Proof. vm_compute. reflexivity. Qed.

(** the constructor rounds to single precision: 0.8205 is stored as
    0x3f520c4a, which is 0.8205000162124634 *)
Example Quaternion_new_rounds :
  Quaternion_new (0.8205, 0.4247, -0.1759, -0.3399)%float =
  mkQuaternion (F32 0x3f520c4a) (F32 0x3ed97247) (F32 0xbe341f21) (F32 0xbeae075f).
Proof. vm_compute. reflexivity. Qed.

(** the product is taken in single precision: the square root of one
    half times 10000000 is 7071067.5 there *)
Example Quaternion_mul_front :
  Quaternion_mul (view_rotation rv3d_front) (Py.float_of_int 10000000) =
  Quaternion_new (7071067.5, 7071067.5, 0, 0)%float.
Proof. vm_compute. reflexivity. Qed.

Example viso_on_sample :
  PDT_OT_viso_execute w_sample =
  (Py.Return FINISHED,
   mkWorld [mkArea "OUTLINER" None;
            mkArea "VIEW_3D"
              (Some (mkRegionView3D
                       (Quaternion_new (0.8205, 0.4247, -0.1759, -0.3399)%float)
                       matrix_sample 7));
            mkArea "PROPERTIES" None;
            mkArea "VIEW_3D" (Some rv3d_user)]
           pg_sample []).
Proof. vm_compute. reflexivity. Qed.

Example vRotU_on_sample :
  PDT_OT_vRotU_execute host_sample w_sample =
  (Py.Return FINISHED,
   mkWorld (screen_areas w_sample) pg_sample
           [view_orbit (30 * Py.pi / 180)%float "ORBITUP"]).
Proof. vm_compute. reflexivity. Qed.

(** where the poll of the host's operator fails, the orbit raises *)
Example vRotU_poll_fails :
  PDT_OT_vRotU_execute host_poll_fails w_sample =
  (Py.Raise Py.RuntimeError,
   mkWorld (screen_areas w_sample) pg_sample
           [view_orbit (30 * Py.pi / 180)%float "ORBITUP"]).
Proof. vm_compute. reflexivity. Qed.

(** a table with two entries for one quaternion answers by its order *)
Example classify_order_with_duplicates :
  let v := (0, 1, 0, 0)%float in
  classify [(v, "BOTTOM"); (v, "FLOOR")] (Quaternion_new v) "none" = "FLOOR" ∧
  classify [(v, "FLOOR"); (v, "BOTTOM")] (Quaternion_new v) "none" = "BOTTOM".
Proof. split; vm_compute; reflexivity. Qed.

(** ** The reset operator *)

Lemma Reset3DView_lookup (w : World) (j : nat) :
  screen_areas (PDT_OT_Reset3DView_execute w).2 !! j =
  reset_one vlist <$> screen_areas w !! j.
Proof.
  unfold PDT_OT_Reset3DView_execute. rewrite Reset3DView_with_run. simpl.
  apply list_lookup_fmap.
Qed.

(** C1: for a VIEW_3D area whose orientation, multiplied by 10,000,000,
    equals one of the six constants of the table, the reset operator
    returns and leaves in that area the same orientation and the same
    view matrix, with the zoom distance set to 18. *)
Theorem Reset3DView_canonical (w : World) (j : nat) (a : Area) (r : RegionView3D) :
  screen_areas w !! j = Some a →
  type a = "VIEW_3D" →
  region_3d a = Some r →
  (∃ e, e ∈ vlist ∧ matches (view_rotation r) e = true) →
  (PDT_OT_Reset3DView_execute w).1 = Py.Return FINISHED ∧
  screen_areas (PDT_OT_Reset3DView_execute w).2 !! j =
    Some (mkArea "VIEW_3D"
            (Some (mkRegionView3D (view_rotation r) (view_matrix r) 18%float))).
Proof.
  intros Ha Hty Hr Hm. split.
  - unfold PDT_OT_Reset3DView_execute. by rewrite Reset3DView_with_run.
  - rewrite Reset3DView_lookup, Ha. simpl. unfold reset_one.
    rewrite bool_decide_true, Hr, Hty by done.
    by rewrite reset_region_match.
Qed.

Lemma Reset3DView_canonical_witness :
  screen_areas (PDT_OT_Reset3DView_execute w_sample).2 !! 1 =
    Some (mkArea "VIEW_3D"
            (Some (mkRegionView3D (view_rotation rv3d_top) matrix_sample 18%float))) ∧
  screen_areas (PDT_OT_Reset3DView_execute w_views).2 !! 0 =
    Some (mkArea "VIEW_3D"
            (Some (mkRegionView3D (view_rotation rv3d_front) matrix_sample 18%float))) ∧
  screen_areas (PDT_OT_Reset3DView_execute w_views).2 !! 1 =
    Some (mkArea "VIEW_3D"
            (Some (mkRegionView3D (view_rotation rv3d_below_top) matrix_sample 18%float))).
Proof.
  split; [|split].
  - apply (Reset3DView_canonical w_sample 1 (mkArea "VIEW_3D" (Some rv3d_top)) rv3d_top);
      [reflexivity..|].
    eexists. split; [apply list_elem_of_here|vm_compute; reflexivity].
  - apply (Reset3DView_canonical w_views 0 (mkArea "VIEW_3D" (Some rv3d_front)) rv3d_front);
      [reflexivity..|].
    eexists. split; [apply list_elem_of_further, list_elem_of_here|vm_compute; reflexivity].
  - apply (Reset3DView_canonical w_views 1
             (mkArea "VIEW_3D" (Some rv3d_below_top)) rv3d_below_top); [reflexivity..|].
    eexists. split; [apply list_elem_of_here|vm_compute; reflexivity].
Defined.



(** ** The absolute rotation *)

(** X10: when the first VIEW_3D area of the screen has a 3D region, the
    absolute rotation returns and has assigned to that region's
    orientation the quaternion that [euler_to_quaternion] gives for the
    three inputs, each multiplied by pi and divided by 180; nothing else
    changes. *)
Theorem ViewRot_sets_orientation
    (euler_to_quaternion : float → float → float → Quaternion)
    (w : World) (i : nat) (a : Area) (r : RegionView3D) (x y z : float) :
  first_view3d (screen_areas w) i →
  screen_areas w !! i = Some a →
  region_3d a = Some r →
  rotation_coords (scene_pdt_pg w) = (x, y, z) →
  PDT_OT_ViewRot_execute euler_to_quaternion w =
  (Py.Return FINISHED,
   mkWorld
     (<[i := mkArea (type a)
               (Some (mkRegionView3D
                        (euler_to_quaternion (x * Py.pi / 180)%float
                                             (y * Py.pi / 180)%float
                                             (z * Py.pi / 180)%float)
                        (view_matrix r) (view_distance r)))]> (screen_areas w))
     (scene_pdt_pg w) (ops_calls w)).
Proof.
  intros Hi Ha Hr Hxyz. rewrite ViewRot_assign_first, Hxyz.
  by rewrite (assign_first_region _ w i a r).
Qed.

Lemma ViewRot_sets_orientation_witness :
  screen_areas (PDT_OT_ViewRot_execute e2q_sample w_sample).2 !! 1 =
  Some (mkArea "VIEW_3D"
          (Some (mkRegionView3D
                   (e2q_sample (90 * Py.pi / 180)%float (0 * Py.pi / 180)%float
                               (45 * Py.pi / 180)%float)
                   matrix_sample 7%float))).
Proof.
  rewrite (ViewRot_sets_orientation e2q_sample w_sample 1
             (mkArea "VIEW_3D" (Some rv3d_top)) rv3d_top 90 0 45 w_sample_first);
    reflexivity.
Defined.

(** C3: on a screen whose first VIEW_3D area has no region the absolute
    rotation does not set an orientation: the assignment raises
    AttributeError, for lack of the test that the reset operator makes,
    and the store stays as it was. *)
Theorem ViewRot_no_region
    (euler_to_quaternion : float → float → float → Quaternion) :
  first_view3d (screen_areas w_no_region) 1 ∧
  PDT_OT_ViewRot_execute euler_to_quaternion w_no_region =
    (Py.Raise Py.AttributeError, w_no_region) ∧
  ¬ ∃ a r,
      screen_areas (PDT_OT_ViewRot_execute euler_to_quaternion w_no_region).2 !! 1 =
        Some a ∧
      region_3d a = Some r.
Proof.
  split; [exact w_no_region_first|]. split; [reflexivity|].
  intros (a & r & Ha & Hr). injection Ha as <-. discriminate.
Qed.

(** ** The isometric view *)

(** X11: when the first VIEW_3D area of the screen has a 3D region, the
    isometric operator returns and has assigned to that region's
    orientation the quaternion made from (0.8205, 0.4247, -0.1759,
    -0.3399), whatever the orientation was; nothing else changes. *)
Theorem viso_sets_orientation (w : World) (i : nat) (a : Area) (r : RegionView3D) :
  first_view3d (screen_areas w) i →
  screen_areas w !! i = Some a →
  region_3d a = Some r →
  PDT_OT_viso_execute w =
  (Py.Return FINISHED,
   mkWorld
     (<[i := mkArea (type a)
               (Some (mkRegionView3D
                        (Quaternion_new (0.8205, 0.4247, -0.1759, -0.3399)%float)
                        (view_matrix r) (view_distance r)))]> (screen_areas w))
     (scene_pdt_pg w) (ops_calls w)).
Proof.
  intros Hi Ha Hr. rewrite viso_assign_first.
  by rewrite (assign_first_region _ w i a r).
Qed.

Lemma viso_sets_orientation_witness :
  screen_areas (PDT_OT_viso_execute w_sample).2 !! 1 =
  Some (mkArea "VIEW_3D"
          (Some (mkRegionView3D
                   (mkQuaternion (F32 0x3f520c4a) (F32 0x3ed97247)
                                 (F32 0xbe341f21) (F32 0xbeae075f))
                   matrix_sample 7%float))).
Proof.
  rewrite (viso_sets_orientation w_sample 1
             (mkArea "VIEW_3D" (Some rv3d_top)) rv3d_top w_sample_first);
    reflexivity.
Defined.

(** C5: on a screen whose first VIEW_3D area has no region the isometric
    operator does not set an orientation: the assignment raises
    AttributeError, for lack of the test that the reset operator makes,
    and the store stays as it was. *)
Theorem viso_no_region :
  first_view3d (screen_areas w_no_region) 1 ∧
  PDT_OT_viso_execute w_no_region = (Py.Raise Py.AttributeError, w_no_region) ∧
  ¬ ∃ a r, screen_areas (PDT_OT_viso_execute w_no_region).2 !! 1 = Some a ∧
           region_3d a = Some r.
Proof.
  split; [exact w_no_region_first|]. split; [reflexivity|].
  intros (a & r & Ha & Hr). injection Ha as <-. discriminate.
Qed.

(** ** Orbit and roll *)

(** C4: when the screen has a VIEW_3D area, each of the four orbit
    operators calls the host's orbit operator once, with the angle
    [vrotangle * pi / 180] and its own direction, and the roll operator
    calls the host's roll operator once with the same angle and the type
    ANGLE; each returns FINISHED when the call returns, and raises what
    the call raises. *)
Theorem orbit_roll_calls
    (view3d_exec : OpsCall → list Area → Py.Outcome () * list Area) (w : World) :
  (∃ a, a ∈ screen_areas w ∧ type a = "VIEW_3D") →
  let angle := (vrotangle (scene_pdt_pg w) * Py.pi / 180)%float in
  let after c :=
    (match (view3d_exec c (screen_areas w)).1 with
     | Py.Return _ => Py.Return FINISHED
     | Py.Raise e => Py.Raise e
     end,
     mkWorld (view3d_exec c (screen_areas w)).2 (scene_pdt_pg w) (ops_calls w ++ [c])) in
  PDT_OT_vRotL_execute view3d_exec w = after (view_orbit angle "ORBITLEFT") ∧
  PDT_OT_vRotR_execute view3d_exec w = after (view_orbit angle "ORBITRIGHT") ∧
  PDT_OT_vRotU_execute view3d_exec w = after (view_orbit angle "ORBITUP") ∧
  PDT_OT_vRotD_execute view3d_exec w = after (view_orbit angle "ORBITDOWN") ∧
  PDT_OT_vRoll_execute view3d_exec w = after (view_roll angle "ANGLE").
Proof.
  intros Hv angle after.
  unfold PDT_OT_vRotL_execute, PDT_OT_vRotR_execute, PDT_OT_vRotU_execute,
    PDT_OT_vRotD_execute, PDT_OT_vRoll_execute.
  by rewrite !orbit_execute_some.
Qed.

Lemma orbit_roll_calls_witness :
  ops_calls (PDT_OT_vRotL_execute host_sample w_sample).2 =
    [view_orbit (30 * Py.pi / 180)%float "ORBITLEFT"] ∧
  ops_calls (PDT_OT_vRoll_execute host_sample w_sample).2 =
    [view_roll (30 * Py.pi / 180)%float "ANGLE"] ∧
  PDT_OT_vRotD_execute host_poll_fails w_sample =
    (Py.Raise Py.RuntimeError,
     mkWorld (screen_areas w_sample) pg_sample
             [view_orbit (30 * Py.pi / 180)%float "ORBITDOWN"]).
Proof.
  assert (∃ a, a ∈ screen_areas w_sample ∧ type a = "VIEW_3D") as Hv.
  { exists (mkArea "VIEW_3D" (Some rv3d_top)). split; [|reflexivity].
    apply list_elem_of_further, list_elem_of_here. }
  destruct (orbit_roll_calls host_sample w_sample Hv) as (HL & _ & _ & _ & HR).
  destruct (orbit_roll_calls host_poll_fails w_sample Hv) as (_ & _ & _ & HD & _).
  rewrite HL, HR, HD. repeat split; reflexivity.
Defined.

(** ** All the operators *)

Ltac execute_cases o :=
  destruct o; unfold execute, PDT_OT_vRotL_execute, PDT_OT_vRotR_execute,
    PDT_OT_vRotU_execute, PDT_OT_vRotD_execute, PDT_OT_vRoll_execute,
    PDT_OT_Reset3DView_execute;
  rewrite ?ViewRot_assign_first, ?viso_assign_first.

(** C6: when no area of the screen has type VIEW_3D, every operator
    returns FINISHED, without raising, and leaves the areas, the inputs of
    the scene and the calls to the host as they were. *)
Theorem execute_without_view3d
    (euler_to_quaternion : float → float → float → Quaternion)
    (view3d_exec : OpsCall → list Area → Py.Outcome () * list Area) (o : Operator) (w : World) :
  no_view3d (screen_areas w) →
  execute euler_to_quaternion view3d_exec o w = (Py.Return FINISHED, w).
Proof.
  intros Hno. execute_cases o;
    try (by apply assign_first_none); try (by apply orbit_execute_none).
  rewrite Reset3DView_with_run. destruct w as [l pg c]. simpl in *.
  do 2 f_equal. rewrite <- (list_fmap_id l) at 2.
  apply list_fmap_ext. intros j a Ha. apply reset_one_other, Hno.
  apply list_elem_of_lookup. eauto.
Qed.

(** C8: no operator changes the inputs of the scene: after any of them,
    returned or raised, [rotation_coords] and [vrotangle] are what they
    were. *)
Theorem execute_keeps_inputs
    (euler_to_quaternion : float → float → float → Quaternion)
    (view3d_exec : OpsCall → list Area → Py.Outcome () * list Area) (o : Operator) (w : World) :
  rotation_coords (scene_pdt_pg (execute euler_to_quaternion view3d_exec o w).2) = rotation_coords (scene_pdt_pg w) ∧
  vrotangle (scene_pdt_pg (execute euler_to_quaternion view3d_exec o w).2) = vrotangle (scene_pdt_pg w).
Proof.
  assert (scene_pdt_pg (execute euler_to_quaternion view3d_exec o w).2 = scene_pdt_pg w) as ->; [|done].
  execute_cases o;
    try apply assign_first_pg; try apply orbit_execute_pg.
  by rewrite Reset3DView_with_run.
Qed.


Lemma execute_without_view3d_witness :
  execute e2q_sample host_sample PDT_OT_Reset3DView w_no_view =
    (Py.Return FINISHED, w_no_view) ∧
  execute e2q_sample host_sample PDT_OT_ViewRot w_no_view =
    (Py.Return FINISHED, w_no_view).
Proof.
  split; apply (execute_without_view3d e2q_sample host_sample); exact w_no_view_none.
Defined.

(** C7 fails for the absolute rotation and for the isometric view: on a
    screen whose first VIEW_3D area has no region they raise
    AttributeError and return no status, where the reset operator, which
    tests the region, returns FINISHED. *)
Theorem execute_raises_without_region
    (euler_to_quaternion : float → float → float → Quaternion)
    (view3d_exec : OpsCall → list Area → Py.Outcome () * list Area) :
  execute euler_to_quaternion view3d_exec PDT_OT_ViewRot w_no_region =
    (Py.Raise Py.AttributeError, w_no_region) ∧
  execute euler_to_quaternion view3d_exec PDT_OT_viso w_no_region =
    (Py.Raise Py.AttributeError, w_no_region) ∧
  (execute euler_to_quaternion view3d_exec PDT_OT_Reset3DView w_no_region).1 =
    Py.Return FINISHED.
Proof. repeat split; reflexivity. Qed.

(** ** The order of the table *)

(** C9: a quaternion matches at most one entry of the table, and the
    classification and the reset operator are the same for every order of
    the table's entries. *)
Theorem vlist_order_irrelevant :
  (∀ (view_rot : Quaternion) (i j : nat) e1 e2,
     vlist !! i = Some e1 → vlist !! j = Some e2 →
     Quaternion_eq view_rot (Quaternion_new e1.1) = true →
     Quaternion_eq view_rot (Quaternion_new e2.1) = true → i = j) ∧
  (∀ vl, vl ≡ₚ vlist →
     (∀ view_rot view_mode,
        classify vl view_rot view_mode = classify vlist view_rot view_mode) ∧
     (∀ w, Reset3DView_with vl w = PDT_OT_Reset3DView_execute w)).
Proof.
  split.
  - intros view_rot i j e1 e2 H1 H2 M1 M2.
    assert (e1 = e2) as <-.
    { apply (single_match_vlist view_rot); [by eapply list_elem_of_lookup_2..|done|done]. }
    by apply (NoDup_lookup vlist i j e1 vlist_NoDup).
  - intros vl Hp. split.
    + intros view_rot view_mode. apply classify_perm; [done|].
      intros e1 e2 H1 H2. apply single_match_vlist; by rewrite <- Hp.
    + intros w. unfold PDT_OT_Reset3DView_execute. rewrite !Reset3DView_with_run.
      do 2 f_equal. apply list_fmap_ext. intros _ a _. by apply reset_one_perm.
Qed.

(** ** One area or all of them *)

Lemma reset_region_cases (r : RegionView3D) :
  reset_region vlist r = with_view_distance 18%float r ∨
  reset_region vlist r =
    with_view_distance 21%float (with_view_matrix default_view_matrix r).
Proof.
  destruct (classify_cases vlist
              (Quaternion_mul (view_rotation r) (Py.float_of_int 10000000)) "none")
    as [[Hno _]|(e & He & Hm & _)].
  - right. by apply reset_region_no_match.
  - left. apply reset_region_match. by exists e.
Qed.

(** C10: the absolute rotation and the isometric view assign the
    orientation of the region of the first VIEW_3D area, the one the
    quaternion of [euler_to_quaternion] and the other the isometric
    quaternion, and keep its view matrix and zoom distance; they leave
    every other area as it was.  The reset operator resets the region of
    every VIEW_3D area: its zoom distance becomes 18, or 21 together with
    the default view matrix. *)
Theorem first_view3d_or_all
    (euler_to_quaternion : float → float → float → Quaternion)
    (w : World) (i : nat) (a : Area) (x y z : float) :
  first_view3d (screen_areas w) i →
  screen_areas w !! i = Some a →
  rotation_coords (scene_pdt_pg w) = (x, y, z) →
  let after_rot := screen_areas (PDT_OT_ViewRot_execute euler_to_quaternion w).2 in
  let after_iso := screen_areas (PDT_OT_viso_execute w).2 in
  let after_reset := screen_areas (PDT_OT_Reset3DView_execute w).2 in
  (∀ r, region_3d a = Some r →
     after_rot !! i =
       Some (mkArea (type a)
               (Some (mkRegionView3D
                        (euler_to_quaternion (x * Py.pi / 180)%float
                                             (y * Py.pi / 180)%float
                                             (z * Py.pi / 180)%float)
                        (view_matrix r) (view_distance r)))) ∧
     after_iso !! i =
       Some (mkArea (type a)
               (Some (mkRegionView3D
                        (Quaternion_new (0.8205, 0.4247, -0.1759, -0.3399)%float)
                        (view_matrix r) (view_distance r))))) ∧
  (∀ j, j ≠ i →
     after_rot !! j = screen_areas w !! j ∧ after_iso !! j = screen_areas w !! j) ∧
  (∀ after, after = after_rot ∨ after = after_iso →
     ∃ a', after !! i = Some a' ∧ type a' = type a ∧
       ∀ r, region_3d a = Some r →
         ∃ r', region_3d a' = Some r' ∧
               view_matrix r' = view_matrix r ∧ view_distance r' = view_distance r) ∧
  (∀ j b r, screen_areas w !! j = Some b → type b = "VIEW_3D" → region_3d b = Some r →
     ∃ r', after_reset !! j = Some (mkArea "VIEW_3D" (Some r')) ∧
           (view_distance r' = 18%float ∧ view_matrix r' = view_matrix r ∨
            view_distance r' = 21%float ∧ view_matrix r' = default_view_matrix)).
Proof.
  intros Hi Ha Hxyz after_rot after_iso after_reset.
  subst after_rot after_iso after_reset.
  rewrite ViewRot_assign_first, viso_assign_first, Hxyz.
  split; [|split; [|split]].
  - intros r Hr. rewrite !(assign_first_region _ w i a r) by done. simpl.
    rewrite !list_lookup_insert_eq by by eapply lookup_lt_Some. done.
  - intros j Hne. split; by apply (assign_first_others _ _ i).
  - intros after [->| ->];
      (edestruct (assign_first_first) as (a' & Ha' & Hty & Hreg); [exact Hi|exact Ha|];
       exists a'; repeat split; [exact Ha'|exact Hty|];
       intros r Hr; destruct (Hreg r Hr) as (r' & Hr' & _ & Hm & Hd); eauto).
  - intros j b r Hb Hty Hr. rewrite Reset3DView_lookup, Hb. simpl.
    unfold reset_one. rewrite bool_decide_true, Hr, Hty by done.
    eexists. split; [reflexivity|].
    destruct (reset_region_cases r) as [-> | ->]; simpl; auto.
Qed.

Lemma first_view3d_or_all_witness :
  screen_areas (PDT_OT_ViewRot_execute e2q_sample w_sample).2 !! 1 =
    Some (mkArea "VIEW_3D"
            (Some (mkRegionView3D
                     (e2q_sample (90 * Py.pi / 180)%float (0 * Py.pi / 180)%float
                                 (45 * Py.pi / 180)%float)
                     matrix_sample 7%float))) ∧
  screen_areas (PDT_OT_viso_execute w_sample).2 !! 1 =
    Some (mkArea "VIEW_3D"
            (Some (mkRegionView3D
                     (Quaternion_new (0.8205, 0.4247, -0.1759, -0.3399)%float)
                     matrix_sample 7%float))) ∧
  screen_areas (PDT_OT_viso_execute w_sample).2 !! 3 =
    Some (mkArea "VIEW_3D" (Some rv3d_user)) ∧
  screen_areas (PDT_OT_ViewRot_execute e2q_sample w_sample).2 !! 3 =
    Some (mkArea "VIEW_3D" (Some rv3d_user)) ∧
  ∃ r', screen_areas (PDT_OT_Reset3DView_execute w_sample).2 !! 3 =
          Some (mkArea "VIEW_3D" (Some r')) ∧
        (view_distance r' = 18%float ∧ view_matrix r' = view_matrix rv3d_user ∨
         view_distance r' = 21%float ∧ view_matrix r' = default_view_matrix).
Proof.
  destruct (first_view3d_or_all e2q_sample w_sample 1
              (mkArea "VIEW_3D" (Some rv3d_top)) 90 0 45 w_sample_first eq_refl eq_refl)
    as (Hfirst & Hothers & _ & Hreset).
  destruct (Hfirst rv3d_top eq_refl) as [Hrot1 Hiso1].
  destruct (Hothers 3) as [Hrot Hiso]; [lia|].
  split; [exact Hrot1|]. split; [exact Hiso1|].
  split; [exact Hiso|]. split; [exact Hrot|].
  apply (Hreset 3 (mkArea "VIEW_3D" (Some rv3d_user)) rv3d_user); reflexivity.
Defined.

(** * Properties of the module as a whole *)

(** ** What the reset loop passes over *)

(** X2: the reset operator leaves an area that is not a VIEW_3D area, and
    a VIEW_3D area without a region, exactly as it was. *)
Theorem Reset3DView_skips (w : World) (j : nat) (a : Area) :
  screen_areas w !! j = Some a →
  type a ≠ "VIEW_3D" ∨ region_3d a = None →
  screen_areas (PDT_OT_Reset3DView_execute w).2 !! j = Some a.
Proof.
  intros Ha Hskip. rewrite Reset3DView_lookup, Ha. simpl. f_equal.
  destruct Hskip as [Hty|Hr]; [by apply reset_one_other|].
  unfold reset_one. rewrite Hr. by case_bool_decide.
Qed.

Lemma Reset3DView_skips_witness :
  screen_areas (PDT_OT_Reset3DView_execute w_no_region).2 !! 0 =
    Some (mkArea "OUTLINER" None) ∧
  screen_areas (PDT_OT_Reset3DView_execute w_no_region).2 !! 1 =
    Some (mkArea "VIEW_3D" None).
Proof.
  split.
  - apply (Reset3DView_skips w_no_region 0); [reflexivity|left; discriminate].
  - apply (Reset3DView_skips w_no_region 1); [reflexivity|right; reflexivity].
Defined.

(** X3: what the reset operator makes of an area depends on that area
    alone: the same area, on any screen and at any position, comes out
    the same, whatever the areas before it were classified as. *)
Theorem Reset3DView_area_alone (w1 w2 : World) (j k : nat) (a : Area) :
  screen_areas w1 !! j = Some a →
  screen_areas w2 !! k = Some a →
  screen_areas (PDT_OT_Reset3DView_execute w1).2 !! j =
  screen_areas (PDT_OT_Reset3DView_execute w2).2 !! k.
Proof. intros H1 H2. by rewrite !Reset3DView_lookup, H1, H2. Qed.

Lemma Reset3DView_area_alone_witness :
  screen_areas (PDT_OT_Reset3DView_execute w_sample).2 !! 1 =
  screen_areas (PDT_OT_Reset3DView_execute w_no_region).2 !! 2.
Proof.
  apply (Reset3DView_area_alone w_sample w_no_region 1 2
           (mkArea "VIEW_3D" (Some rv3d_top))); reflexivity.
Defined.

(** ** What the writing operators keep *)

Lemma reset_one_type vl (a : Area) : type (reset_one vl a) = type a.
Proof. unfold reset_one. case_bool_decide; [|done]. by destruct (region_3d a). Qed.

Lemma reset_one_has_region vl (a : Area) :
  has_region (reset_one vl a) = has_region a.
Proof.
  unfold reset_one, has_region. case_bool_decide; [|done].
  destruct (region_3d a) eqn:Hr; simpl; by rewrite ?Hr.
Qed.

Lemma fmap_insert_same {A B} (f : A → B) (l : list A) (i : nat) (x y : A) :
  l !! i = Some x → f y = f x → f <$> <[i := y]> l = f <$> l.
Proof.
  intros Hx Hf. rewrite list_fmap_insert, Hf.
  apply list_insert_id. by rewrite list_lookup_fmap, Hx.
Qed.

Lemma assign_first_shape (q : Quaternion) (w : World) :
  type <$> screen_areas (assign_first q w).2 = type <$> screen_areas w ∧
  has_region <$> screen_areas (assign_first q w).2 = has_region <$> screen_areas w ∧
  ops_calls (assign_first q w).2 = ops_calls w.
Proof.
  destruct (assign_first_cases q w)
    as [[-> _]|[(i & a & r & _ & Ha & Hr & ->)|(i & a & _ & _ & _ & ->)]];
    [done| |done].
  simpl. repeat split.
  - by apply (fmap_insert_same _ _ _ a).
  - apply (fmap_insert_same _ _ _ a); [done|]. unfold has_region. simpl. by rewrite Hr.
Qed.

(** X4: the absolute rotation, the isometric view and the reset operator
    keep the screen's areas in number and in type, give no area a region
    and take none away, and call no operator of the host. *)
Theorem writes_region_keeps_shape
    (euler_to_quaternion : float → float → float → Quaternion)
    (view3d_exec : OpsCall → list Area → Py.Outcome () * list Area) (o : Operator) (w : World) :
  writes_region o = true →
  let w' := (execute euler_to_quaternion view3d_exec o w).2 in
  type <$> screen_areas w' = type <$> screen_areas w ∧
  has_region <$> screen_areas w' = has_region <$> screen_areas w ∧
  ops_calls w' = ops_calls w.
Proof.
  intros Ho w'. subst w'. destruct o; try discriminate; unfold execute.
  - rewrite ViewRot_assign_first. apply assign_first_shape.
  - rewrite viso_assign_first. apply assign_first_shape.
  - unfold PDT_OT_Reset3DView_execute. rewrite Reset3DView_with_run. simpl.
    rewrite <- !list_fmap_compose. repeat split; apply list_fmap_ext; intros _ a _; simpl.
    + apply reset_one_type.
    + apply reset_one_has_region.
Qed.

Lemma writes_region_keeps_shape_witness :
  type <$> screen_areas (execute e2q_sample host_sample PDT_OT_Reset3DView w_sample).2 =
    ["OUTLINER"; "VIEW_3D"; "PROPERTIES"; "VIEW_3D"] ∧
  has_region <$> screen_areas (execute e2q_sample host_sample PDT_OT_viso w_no_region).2 =
    [false; false; true].
Proof.
  split.
  - apply (writes_region_keeps_shape e2q_sample host_sample PDT_OT_Reset3DView w_sample).
    reflexivity.
  - apply (writes_region_keeps_shape e2q_sample host_sample PDT_OT_viso w_no_region).
    reflexivity.
Defined.

(** ** One assignment after another *)

Lemma first_view3d_insert (l : list Area) (i : nat) (a a' : Area) :
  first_view3d l i → l !! i = Some a → type a' = type a →
  first_view3d (<[i := a']> l) i.
Proof.
  intros [(b & Hb & Hty) Hlt] Ha Hta. split.
  - exists a'. rewrite list_lookup_insert_eq by by eapply lookup_lt_Some.
    split; [done|]. rewrite Hta. by simplify_eq.
  - intros j c Hj. rewrite list_lookup_insert_ne by lia. by apply Hlt.
Qed.

(** the later of two assignments is the one that stays *)
Lemma assign_first_twice (q1 q2 : Quaternion) (w : World) :
  (assign_first q1;; assign_first q2) w = assign_first q2 w.
Proof.
  unfold mbind at 1, Op_bind, bind.
  destruct (assign_first_cases q1 w)
    as [[-> _]|[(i & a & r & Hi & Ha & Hr & ->)|(i & a & Hi & Ha & Hr & ->)]].
  - done.
  - rewrite (assign_first_region q2 w i a r) by done.
    rewrite (assign_first_region q2 _ i (mkArea (type a) (Some (with_view_rotation q1 r)))
               (with_view_rotation q1 r)); simpl.
    + by rewrite list_insert_insert_eq.
    + by apply (first_view3d_insert _ _ a).
    + apply list_lookup_insert_eq. by eapply lookup_lt_Some.
    + done.
  - by rewrite (assign_first_no_region q2 w i a).
Qed.

Lemma ViewRot_after_assign e2q (q : Quaternion) (w : World) :
  (assign_first q;; PDT_OT_ViewRot_execute e2q) w = PDT_OT_ViewRot_execute e2q w.
Proof.
  rewrite ViewRot_assign_first, <- assign_first_twice with (q1 := q).
  unfold mbind, Op_bind, bind.
  pose proof (assign_first_pg q w) as Hpg.
  destruct (assign_first q w) as [[s|e] w1]; [|done].
  simpl in Hpg. by rewrite ViewRot_assign_first, Hpg.
Qed.

(** X5: the absolute rotation is absolute: executed twice with the same
    inputs it leaves the store it leaves when executed once, and it
    raises the second time only where it raised the first time. *)
Theorem ViewRot_twice
    (euler_to_quaternion : float → float → float → Quaternion) (w : World) :
  (PDT_OT_ViewRot_execute euler_to_quaternion;;
   PDT_OT_ViewRot_execute euler_to_quaternion) w =
  PDT_OT_ViewRot_execute euler_to_quaternion w.
Proof.
  rewrite <- (ViewRot_after_assign euler_to_quaternion
                (let '(x, y, z) := rotation_coords (scene_pdt_pg w) in
                 euler_to_quaternion (x * Py.pi / 180)%float (y * Py.pi / 180)%float
                                     (z * Py.pi / 180)%float) w).
  unfold mbind, Op_bind, bind. by rewrite <- ViewRot_assign_first.
Qed.

(** X6: of the absolute rotation and the isometric view executed one
    after the other, the second alone decides the result: the store and
    the outcome are those of the second executed on its own. *)
Theorem ViewRot_viso_last_wins
    (euler_to_quaternion : float → float → float → Quaternion) (w : World) :
  (PDT_OT_ViewRot_execute euler_to_quaternion;; PDT_OT_viso_execute) w =
    PDT_OT_viso_execute w ∧
  (PDT_OT_viso_execute;; PDT_OT_ViewRot_execute euler_to_quaternion) w =
    PDT_OT_ViewRot_execute euler_to_quaternion w ∧
  (PDT_OT_viso_execute;; PDT_OT_viso_execute) w = PDT_OT_viso_execute w.
Proof.
  rewrite viso_assign_first. repeat split.
  - unfold mbind, Op_bind, bind. rewrite ViewRot_assign_first.
    apply assign_first_twice.
  - apply ViewRot_after_assign.
  - apply assign_first_twice.
Qed.

(** ** The reset after the isometric view *)

Lemma viso_sets_orientation_region (w : World) (i : nat) (a : Area) (r : RegionView3D) :
  first_view3d (screen_areas w) i →
  screen_areas w !! i = Some a →
  region_3d a = Some r →
  PDT_OT_viso_execute w =
  (Py.Return FINISHED,
   mkWorld
     (<[i := mkArea (type a)
               (Some (with_view_rotation
                        (Quaternion_new (0.8205, 0.4247, -0.1759, -0.3399)%float) r))]>
        (screen_areas w))
     (scene_pdt_pg w) (ops_calls w)).
Proof. intros Hi Ha Hr. rewrite viso_assign_first. by apply assign_first_region. Qed.

Lemma iso_not_canonical (e : tuple4 * string) :
  e ∈ vlist →
  matches (Quaternion_new (0.8205, 0.4247, -0.1759, -0.3399)%float) e = false.
Proof. intros He. vlist_cases He; reflexivity. Qed.

(** X7: the isometric orientation is none of the six of the table: where
    the isometric view has assigned it, a reset that follows replaces the
    view matrix by the default one and sets the zoom distance to 21. *)
Theorem Reset3DView_after_viso (w : World) (i : nat) (a : Area) (r : RegionView3D) :
  first_view3d (screen_areas w) i →
  screen_areas w !! i = Some a →
  region_3d a = Some r →
  ∃ w' r',
    (PDT_OT_viso_execute;; PDT_OT_Reset3DView_execute) w = (Py.Return FINISHED, w') ∧
    screen_areas w' !! i = Some (mkArea "VIEW_3D" (Some r')) ∧
    view_matrix r' = default_view_matrix ∧ view_distance r' = 21%float.
Proof.
  intros Hi Ha Hr.
  assert (type a = "VIEW_3D") as Hty.
  { destruct Hi as [(b & Hb & Hty) _]. by simplify_eq. }
  unfold mbind, Op_bind, bind.
  rewrite (viso_sets_orientation_region w i a r Hi Ha Hr).
  unfold PDT_OT_Reset3DView_execute. rewrite Reset3DView_with_run.
  do 2 eexists. split; [reflexivity|]. simpl.
  rewrite list_lookup_fmap, list_lookup_insert_eq by by eapply lookup_lt_Some.
  simpl. unfold reset_one. simpl. rewrite bool_decide_true, Hty by done.
  rewrite reset_region_no_match by (intros e He; by apply iso_not_canonical).
  done.
Qed.

Lemma Reset3DView_after_viso_witness :
  ∃ w' r',
    (PDT_OT_viso_execute;; PDT_OT_Reset3DView_execute) w_sample =
      (Py.Return FINISHED, w') ∧
    screen_areas w' !! 1 = Some (mkArea "VIEW_3D" (Some r')) ∧
    view_matrix r' = default_view_matrix ∧ view_distance r' = 21%float.
Proof.
  apply (Reset3DView_after_viso w_sample 1 (mkArea "VIEW_3D" (Some rv3d_top)) rv3d_top
           w_sample_first); reflexivity.
Defined.

(** ** An orientation that is not a number *)

Lemma has_nan_no_match (q : Quaternion) (e : tuple4 * string) :
  e ∈ vlist → Quaternion_has_nan q = true → matches q e = false.
Proof.
  intros He Hnan. destruct (vlist_no_nan_near e He) as (Nw & Nx & Ny & Nz).
  unfold Quaternion_has_nan in Hnan. rewrite !orb_true_iff in Hnan.
  set (q' := Quaternion_mul q (Py.float_of_int 10000000)).
  pose (s := float32_of_float (Py.float_of_int 10000000)).
  unfold Quaternion_eq.
  destruct Hnan as [[[H|H]|H]|H].
  - assert (is_nan32 (qw q') = true) as H' by exact (nan_mul_is_nan (qw q) s H).
    by rewrite (nan_FloatsAreEqual _ _ H' Nw).
  - assert (is_nan32 (qx q') = true) as H' by exact (nan_mul_is_nan (qx q) s H).
    by rewrite (nan_FloatsAreEqual _ _ H' Nx), andb_false_r.
  - assert (is_nan32 (qy q') = true) as H' by exact (nan_mul_is_nan (qy q) s H).
    by rewrite (nan_FloatsAreEqual _ _ H' Ny), andb_false_r.
  - assert (is_nan32 (qz q') = true) as H' by exact (nan_mul_is_nan (qz q) s H).
    by rewrite (nan_FloatsAreEqual _ _ H' Nz), andb_false_r.
Qed.

(** X8: a VIEW_3D area whose orientation has a component that is not a
    number matches no entry of the table: the reset operator gives it the
    default view matrix and the zoom distance 21. *)
Theorem Reset3DView_nan (w : World) (j : nat) (a : Area) (r : RegionView3D) :
  screen_areas w !! j = Some a →
  type a = "VIEW_3D" →
  region_3d a = Some r →
  Quaternion_has_nan (view_rotation r) = true →
  ∃ r', screen_areas (PDT_OT_Reset3DView_execute w).2 !! j =
          Some (mkArea "VIEW_3D" (Some r')) ∧
        view_matrix r' = default_view_matrix ∧ view_distance r' = 21%float.
Proof.
  intros Ha Hty Hr Hnan. rewrite Reset3DView_lookup, Ha. simpl.
  unfold reset_one. rewrite bool_decide_true, Hr, Hty by done.
  rewrite reset_region_no_match by (intros e He; by apply has_nan_no_match).
  by eexists.
Qed.

Lemma Reset3DView_nan_witness :
  ∃ r', screen_areas (PDT_OT_Reset3DView_execute w_nan).2 !! 0 =
          Some (mkArea "VIEW_3D" (Some r')) ∧
        view_matrix r' = default_view_matrix ∧ view_distance r' = 21%float.
Proof.
  apply (Reset3DView_nan w_nan 0 (mkArea "VIEW_3D" (Some rv3d_nan)) rv3d_nan);
    reflexivity.
Defined.

(** ** The reset of a canonical view, repeated *)

(** X9: a VIEW_3D area whose orientation matches an entry of the table is
    stable under the reset operator: a second reset finds the same
    orientation and leaves the area as the first one left it, with the
    zoom distance 18. *)
Theorem Reset3DView_canonical_twice (w : World) (j : nat) (a : Area) (r : RegionView3D) :
  screen_areas w !! j = Some a →
  type a = "VIEW_3D" →
  region_3d a = Some r →
  (∃ e, e ∈ vlist ∧ matches (view_rotation r) e = true) →
  ∃ w',
    (PDT_OT_Reset3DView_execute;; PDT_OT_Reset3DView_execute) w =
      (Py.Return FINISHED, w') ∧
    screen_areas w' !! j = screen_areas (PDT_OT_Reset3DView_execute w).2 !! j ∧
    screen_areas w' !! j =
      Some (mkArea "VIEW_3D"
              (Some (mkRegionView3D (view_rotation r) (view_matrix r) 18%float))).
Proof.
  intros Ha Hty Hr Hm. unfold mbind, Op_bind, bind, PDT_OT_Reset3DView_execute.
  rewrite !Reset3DView_with_run. eexists. split; [reflexivity|]. simpl.
  rewrite !list_lookup_fmap, Ha. simpl.
  assert (reset_one vlist a =
          mkArea "VIEW_3D" (Some (with_view_distance 18%float r))) as ->.
  { unfold reset_one. rewrite bool_decide_true, Hr, Hty by done.
    by rewrite reset_region_match. }
  assert (reset_one vlist (mkArea "VIEW_3D" (Some (with_view_distance 18%float r))) =
          mkArea "VIEW_3D" (Some (with_view_distance 18%float r))) as ->; [|done].
  unfold reset_one. simpl region_3d. simpl type. rewrite bool_decide_true by done.
  by rewrite (reset_region_match (with_view_distance 18%float r) Hm).
Qed.

Lemma Reset3DView_canonical_twice_witness :
  (∃ w',
     (PDT_OT_Reset3DView_execute;; PDT_OT_Reset3DView_execute) w_sample =
       (Py.Return FINISHED, w') ∧
     screen_areas w' !! 1 = screen_areas (PDT_OT_Reset3DView_execute w_sample).2 !! 1 ∧
     screen_areas w' !! 1 =
       Some (mkArea "VIEW_3D"
               (Some (mkRegionView3D (view_rotation rv3d_top) matrix_sample 18%float)))) ∧
  (∃ w',
     (PDT_OT_Reset3DView_execute;; PDT_OT_Reset3DView_execute) w_views =
       (Py.Return FINISHED, w') ∧
     screen_areas w' !! 0 = screen_areas (PDT_OT_Reset3DView_execute w_views).2 !! 0 ∧
     screen_areas w' !! 0 =
       Some (mkArea "VIEW_3D"
               (Some (mkRegionView3D (view_rotation rv3d_front) matrix_sample 18%float)))).
Proof.
  split.
  - apply (Reset3DView_canonical_twice w_sample 1
             (mkArea "VIEW_3D" (Some rv3d_top)) rv3d_top); [reflexivity..|].
    eexists. split; [apply list_elem_of_here|vm_compute; reflexivity].
  - apply (Reset3DView_canonical_twice w_views 0
             (mkArea "VIEW_3D" (Some rv3d_front)) rv3d_front); [reflexivity..|].
    eexists. split; [apply list_elem_of_further, list_elem_of_here|vm_compute; reflexivity].
Defined.
